(** * Mond Clock: a verified model of [wallpapers/mond_clock/script.js]

    The script formats the host's local wall-clock time into three DOM text
    slots ([day], [date], [time]) and re-renders on every whole minute.

    Layout of the development:
    - [JS]        : the few JavaScript values and coercions the script uses;
    - [EcmaDate]  : the time-value arithmetic behind the [Date] getters
                    (ECMA-262, section "Date Objects", abstract operations);
    - [Clock]     : [updateClock] itself, over a world made of a clock, the
                    DOM and a timer queue, the top-level script and the
                    event loop that runs its timers;
    - [Spec]      : the vocabulary of the specification;
    - [DateFacts], [ClockFacts], [LoopFacts] : the lemmas;
    - the claims of the specification, each with the page it is tried on.

    Numbers: every number the script handles is an integer far below 2^53
    in magnitude (time values are at most 8.64e15), where JavaScript's
    doubles are exact, so they are modelled in [Z]. *)

From Stdlib Require Import ZArith Lia List String Ascii.
From stdpp Require Import gmap strings pretty.

Local Open Scope Z_scope.

(** ** JavaScript values *)

Module JS.

(** The script only ever holds [undefined], integral numbers and strings. *)
Inductive value : Type :=
  | Undefined
  | Num (n : Z)
  | Str (s : string).

(** [ToString]: what a template literal [`${v}`] and [+] with a string
    operand apply to [v]. Integral numbers print in decimal, with a leading
    minus sign when negative. *)
Definition ToString (v : value) : string :=
  match v with
  | Undefined => "undefined"
  | Num n => pretty n
  | Str s => s
  end.

(** [ToBoolean] on the values above: [0] and the empty string are falsy. *)
Definition ToBoolean (v : value) : bool :=
  match v with
  | Undefined => false
  | Num n => negb (n =? 0)
  | Str s => negb (String.eqb s EmptyString)
  end.

(** [a[i]] on an array literal of strings: an index outside the array reads
    [undefined]. *)
Definition index (a : list string) (i : Z) : value :=
  if i <? 0 then Undefined
  else match nth_error a (Z.to_nat i) with
       | Some s => Str s
       | None => Undefined
       end.

(** ['0' + v]: with a string on the left, [+] concatenates. *)
Definition concat (s : string) (v : value) : value :=
  Str (s +:+ ToString v).

End JS.

(** ** Time values and the [Date] getters *)

Module EcmaDate.

Definition HoursPerDay : Z := 24.
Definition MinutesPerHour : Z := 60.
Definition SecondsPerMinute : Z := 60.
Definition msPerSecond : Z := 1000.
Definition msPerMinute : Z := 60000.
Definition msPerHour : Z := 3600000.
Definition msPerDay : Z := 86400000.

(** A time value is a count of milliseconds since 1970-01-01T00:00:00Z.
    [Z.div] and [Z.modulo] are the floor division and the non-negative
    remainder that the standard asks for, also before 1970. *)
Definition Day (t : Z) : Z := t / msPerDay.
Definition TimeWithinDay (t : Z) : Z := t mod msPerDay.

Definition DaysInYear (y : Z) : Z :=
  if negb (y mod 4 =? 0) then 365
  else if negb (y mod 100 =? 0) then 366
  else if negb (y mod 400 =? 0) then 365
  else 366.

Definition DayFromYear (y : Z) : Z :=
  365 * (y - 1970) + (y - 1969) / 4 - (y - 1901) / 100 + (y - 1601) / 400.

Definition TimeFromYear (y : Z) : Z := msPerDay * DayFromYear y.

(** [YearFromTime t] is specified as the largest [y] with
    [TimeFromYear y <= t]. It is computed from the mean Gregorian year
    (146097 days in 400 years) and corrected by at most one year; lemma
    [DateFacts.YearFromTime_largest] shows the result is the specified
    one. *)
Definition YearFromTime (t : Z) : Z :=
  let d := Day t in
  let y := 1970 + (400 * d) / 146097 in
  if DayFromYear (y + 1) <=? d then y + 1
  else if DayFromYear y <=? d then y
  else y - 1.

Definition InLeapYear (t : Z) : Z :=
  if DaysInYear (YearFromTime t) =? 365 then 0 else 1.

Definition DayWithinYear (t : Z) : Z :=
  Day t - DayFromYear (YearFromTime t).

Definition MonthFromTime (t : Z) : Z :=
  let inLeapYear := InLeapYear t in
  let dayWithinYear := DayWithinYear t in
  if dayWithinYear <? 31 then 0
  else if dayWithinYear <? 59 + inLeapYear then 1
  else if dayWithinYear <? 90 + inLeapYear then 2
  else if dayWithinYear <? 120 + inLeapYear then 3
  else if dayWithinYear <? 151 + inLeapYear then 4
  else if dayWithinYear <? 181 + inLeapYear then 5
  else if dayWithinYear <? 212 + inLeapYear then 6
  else if dayWithinYear <? 243 + inLeapYear then 7
  else if dayWithinYear <? 273 + inLeapYear then 8
  else if dayWithinYear <? 304 + inLeapYear then 9
  else if dayWithinYear <? 334 + inLeapYear then 10
  else 11.

Definition DateFromTime (t : Z) : Z :=
  let inLeapYear := InLeapYear t in
  let dayWithinYear := DayWithinYear t in
  let month := MonthFromTime t in
  if month =? 0 then dayWithinYear + 1
  else if month =? 1 then dayWithinYear - 30
  else if month =? 2 then dayWithinYear - 58 - inLeapYear
  else if month =? 3 then dayWithinYear - 89 - inLeapYear
  else if month =? 4 then dayWithinYear - 119 - inLeapYear
  else if month =? 5 then dayWithinYear - 150 - inLeapYear
  else if month =? 6 then dayWithinYear - 180 - inLeapYear
  else if month =? 7 then dayWithinYear - 211 - inLeapYear
  else if month =? 8 then dayWithinYear - 242 - inLeapYear
  else if month =? 9 then dayWithinYear - 272 - inLeapYear
  else if month =? 10 then dayWithinYear - 303 - inLeapYear
  else dayWithinYear - 333 - inLeapYear.

Definition WeekDay (t : Z) : Z := (Day t + 4) mod 7.

Definition HourFromTime (t : Z) : Z := (t / msPerHour) mod HoursPerDay.
Definition MinFromTime (t : Z) : Z := (t / msPerMinute) mod MinutesPerHour.
Definition SecFromTime (t : Z) : Z := (t / msPerSecond) mod SecondsPerMinute.
Definition msFromTime (t : Z) : Z := t mod msPerSecond.

(** [MakeTime], [MakeDay] and [MakeDate] are the abstract operations that
    build a local time value from calendar fields; they are used here to
    name instants of 2024. [MakeDay] finds the first day of month
    [month mod 12] of year [year + month / 12] and counts [date - 1] days
    from it. *)
Definition MakeTime (hour min sec ms : Z) : Z :=
  hour * msPerHour + min * msPerMinute + sec * msPerSecond + ms.

Definition daysBeforeMonth (leap m : Z) : Z :=
  match m with
  | 0 => 0
  | 1 => 31
  | 2 => 59 + leap
  | 3 => 90 + leap
  | 4 => 120 + leap
  | 5 => 151 + leap
  | 6 => 181 + leap
  | 7 => 212 + leap
  | 8 => 243 + leap
  | 9 => 273 + leap
  | 10 => 304 + leap
  | _ => 334 + leap
  end.

Definition MakeDay (year month date : Z) : Z :=
  let ym := year + month / 12 in
  let mn := month mod 12 in
  let leap := if DaysInYear ym =? 365 then 0 else 1 in
  DayFromYear ym + daysBeforeMonth leap mn + date - 1.

Definition MakeDate (day time : Z) : Z := day * msPerDay + time.

End EcmaDate.

(** ** The script *)

Module Clock.

Import JS EcmaDate.

(** A [Date] object holds one time value. *)
Record Date : Type := mkDate { timeValue : Z }.

(** The two callbacks the script hands to the timer functions: the arrow
    function of [setTimeout] and [updateClock] itself ([setInterval]). *)
Inductive callback : Type :=
  | AlignCallback
  | UpdateClockCallback.

(** A pending timer: when it is due on the event loop's own time line, its
    repetition period ([None] for [setTimeout]) and what it runs. *)
Record timer : Type := mkTimer {
  due : Z;
  period : option Z;
  action : callback
}.

(** What the script can see and touch.
    - [clock k] is what the system clock answers to the [k]-th [new Date()]
      of the run, [reads] counts the answers used so far: nothing is assumed
      about successive readings;
    - [dom] maps the id of each element of the page to its [textContent];
    - [loopTime] is the event loop's current time, [timers] the pending
      timers in the order they were set;
    - [calls] is a history variable, read by no code: the event-loop times at
      which [updateClock] was entered, latest first. *)
Record World : Type := mkWorld {
  clock : nat -> Z;
  reads : nat;
  dom : gmap string string;
  loopTime : Z;
  timers : list timer;
  calls : list Z
}.

Inductive error : Type :=
  | TypeError.

(** A computation either completes with a value or throws; both leave a
    world behind. *)
Inductive outcome (A : Type) : Type :=
  | Normal (a : A) (w : World)
  | Throw (e : error) (w : World).
Arguments Normal {A} a w.
Arguments Throw {A} e w.

Definition M (A : Type) : Type := World -> outcome A.

#[export] Instance M_ret : MRet M := fun A a w => Normal a w.

#[export] Instance M_bind : MBind M := fun A B k m w =>
  match m w with
  | Normal a w' => k a w'
  | Throw e w' => Throw e w'
  end.

Definition world_of {A} (o : outcome A) : World :=
  match o with
  | Normal _ w => w
  | Throw _ w => w
  end.

(** [new Date()]: the next reading of the clock, always a valid time
    value. *)
Definition newDate : M Date :=
  fun w =>
    Normal (mkDate (clock w (reads w)))
           (mkWorld (clock w) (S (reads w)) (dom w) (loopTime w) (timers w)
                    (calls w)).

(** [document.getElementById(id).textContent = v]. [getElementById] answers
    [null] for an unknown id, and setting a property of [null] throws. The
    attribute is a nullable string: [undefined] is stored as the empty
    string, anything else through [ToString]. *)
Definition textOf (v : value) : string :=
  match v with
  | Undefined => EmptyString
  | _ => ToString v
  end.

Definition setTextContent (id : string) (v : value) : M unit :=
  fun w =>
    match dom w !! id with
    | None => Throw TypeError w
    | Some _ =>
        Normal tt (mkWorld (clock w) (reads w) (<[id := textOf v]> (dom w))
                           (loopTime w) (timers w) (calls w))
    end.

(** [setTimeout(c, delay)] and [setInterval(c, delay)]: a negative delay
    counts as zero. *)
Definition addTimer (p : option Z) (c : callback) (delay : Z) : M unit :=
  fun w =>
    Normal tt (mkWorld (clock w) (reads w) (dom w) (loopTime w)
                       (timers w ++ [mkTimer (loopTime w + Z.max 0 delay) p c])
                       (calls w)).

Definition setTimeout (c : callback) (delay : Z) : M unit :=
  addTimer None c delay.

Definition setInterval (c : callback) (delay : Z) : M unit :=
  addTimer (Some (Z.max 0 delay)) c delay.

(** Entering [updateClock] is recorded in the history. *)
Definition enter : M unit :=
  fun w =>
    Normal tt (mkWorld (clock w) (reads w) (dom w) (loopTime w) (timers w)
                       (loopTime w :: calls w)).

Section Host.

(** The host's time zone rule: the offset of local time from UTC, in
    milliseconds, in force at a given time value. *)
Variable LocalTZA : Z -> Z.

Definition LocalTime (t : Z) : Z := t + LocalTZA t.

Definition getDay (d : Date) : Z := WeekDay (LocalTime (timeValue d)).
Definition getMonth (d : Date) : Z := MonthFromTime (LocalTime (timeValue d)).
Definition getDate (d : Date) : Z := DateFromTime (LocalTime (timeValue d)).
Definition getFullYear (d : Date) : Z := YearFromTime (LocalTime (timeValue d)).
Definition getHours (d : Date) : Z := HourFromTime (LocalTime (timeValue d)).
Definition getMinutes (d : Date) : Z := MinFromTime (LocalTime (timeValue d)).
Definition getSeconds (d : Date) : Z := SecFromTime (LocalTime (timeValue d)).
Definition getMilliseconds (d : Date) : Z :=
  msFromTime (LocalTime (timeValue d)).

Definition days : list string :=
  ["Sunday"; "Monday"; "Tuesday"; "Wednesday"; "Thursday"; "Friday";
   "Saturday"].

Definition months : list string :=
  ["January"; "February"; "March"; "April"; "May"; "June"; "July"; "August";
   "September"; "October"; "November"; "December"].

(** [updateClock], statement by statement. [Z.rem] is JavaScript's [%]. *)
Definition updateClock : M unit :=
  enter;;
  now ← newDate;
  setTextContent "day" (index days (getDay now));;
  let dateStr :=
    ToString (index months (getMonth now)) +:+ " " +:+
    ToString (Num (getDate now)) +:+ ", " +:+
    ToString (Num (getFullYear now)) in
  setTextContent "date" (Str dateStr);;
  let hours := getHours now in
  let minutes := getMinutes now in
  let ampm := if hours >=? 12 then "PM" else "AM" in
  let hours := Z.rem hours 12 in
  let hours := if ToBoolean (Num hours) then hours else 12 in
  let minutesStr := if minutes <? 10 then concat "0" (Num minutes)
                    else Num minutes in
  let timeStr :=
    "- " +:+ ToString (Num hours) +:+ ":" +:+ ToString minutesStr +:+ " " +:+
    ampm +:+ " -" in
  setTextContent "time" (Str timeStr).

(** The constant [msUntilNextMinute] of the top level, as a function of the
    [Date] read just before it. *)
Definition msUntilNextMinute (now : Date) : Z :=
  (60 - getSeconds now) * 1000 - getMilliseconds now.

(** The body of a timer callback. *)
Definition runCallback (c : callback) : M unit :=
  match c with
  | AlignCallback =>
      updateClock;;
      setInterval UpdateClockCallback 60000
  | UpdateClockCallback => updateClock
  end.

(** The top level of the script. *)
Definition script : M unit :=
  updateClock;;
  now ← newDate;
  setTimeout AlignCallback (msUntilNextMinute now).

(** *** The event loop

    [nextTimer] takes the pending timer that is due first, the one set first
    among equals, and leaves the others in order. *)
Fixpoint nextTimer (ts : list timer) : option (timer * list timer) :=
  match ts with
  | [] => None
  | t :: ts' =>
      match nextTimer ts' with
      | Some (t', rest) =>
          if due t' <? due t then Some (t', t :: rest) else Some (t, ts')
      | None => Some (t, [])
      end
  end.

(** One turn of the loop: time moves on to the next timer, its callback runs
    (an exception it throws is reported and the loop goes on), and a repeating
    timer is set again one period later. With no timer pending the loop
    idles: [None]. *)
Definition fire (w : World) : option World :=
  match nextTimer (timers w) with
  | None => None
  | Some (t, rest) =>
      let w1 := mkWorld (clock w) (reads w) (dom w)
                        (Z.max (loopTime w) (due t)) rest (calls w) in
      let w2 := world_of (runCallback (action t) w1) in
      Some match period t with
           | None => w2
           | Some p =>
               mkWorld (clock w2) (reads w2) (dom w2) (loopTime w2)
                       (timers w2 ++
                        [mkTimer (loopTime w2 + p) (Some p) (action t)])
                       (calls w2)
           end
  end.

Fixpoint run (n : nat) (w : World) : option World :=
  match n with
  | O => Some w
  | S n' =>
      match fire w with
      | Some w' => run n' w'
      | None => None
      end
  end.

(** Loading the page runs the script to its end, or to its first uncaught
    exception. *)
Definition load (w : World) : World := world_of (script w).

End Host.

(** The three output targets are on the page. *)
Definition hasTargets (w : World) : Prop :=
  is_Some (dom w !! "day") /\ is_Some (dom w !! "date") /\
  is_Some (dom w !! "time").

(** The [Date] that the next [new Date()] yields. *)
Definition nextDate (w : World) : Date := mkDate (clock w (reads w)).

End Clock.

(** ** The specification's vocabulary

    These follow the wording of the specification (data model and
    [render]), not the script; the theorems compare the two. *)

Module Spec.

(** Fixed seven-entry table, Sunday first. *)
Definition weekdayNames : list string :=
  ["Sunday"; "Monday"; "Tuesday"; "Wednesday"; "Thursday"; "Friday";
   "Saturday"].

(** Fixed twelve-entry table of English month names. *)
Definition monthNames : list string :=
  ["January"; "February"; "March"; "April"; "May"; "June"; "July"; "August";
   "September"; "October"; "November"; "December"].

Definition weekdayName (dayOfWeek : Z) : string :=
  nth (Z.to_nat dayOfWeek) weekdayNames EmptyString.

Definition monthName (month : Z) : string :=
  nth (Z.to_nat month) monthNames EmptyString.

(** "{MonthName} {DayOfMonth}, {Year}" *)
Definition dateLabel (month dayOfMonth year : Z) : string :=
  monthName month +:+ " " +:+ pretty dayOfMonth +:+ ", " +:+ pretty year.

(** [hour >= 12] gives PM, else AM. *)
Definition AmPm (hour : Z) : string :=
  if 12 <=? hour then "PM" else "AM".

(** [hour mod 12], with 12 substituted when the result is 0. *)
Definition Hour12 (hour : Z) : Z :=
  if hour mod 12 =? 0 then 12 else hour mod 12.

(** Zero-padded to width 2 when [minute < 10]. *)
Definition MinutePadded (minute : Z) : string :=
  if minute <? 10 then "0" +:+ pretty minute else pretty minute.

(** "- {Hour12}:{MinutePadded} {AM|PM} -" *)
Definition timeLabel (hour minute : Z) : string :=
  "- " +:+ pretty (Hour12 hour) +:+ ":" +:+ MinutePadded minute +:+ " " +:+
  AmPm hour +:+ " -".

(** The calendar, independently of time values: the length of a month
    (numbered from 0, [leap] is 1 in a leap year) and the day of the week of
    a Gregorian date by Zeller's congruence, whose result counts from
    Saturday = 0. *)
Definition DaysInMonth (leap month : Z) : Z :=
  match month with
  | 1 => 28 + leap
  | 3 | 5 | 8 | 10 => 30
  | _ => 31
  end.

Definition zeller (year month date : Z) : Z :=
  let m := if month <? 2 then month + 13 else month + 1 in
  let Y := if month <? 2 then year - 1 else year in
  (date + 13 * (m + 1) / 5 + Y + Y / 4 - Y / 100 + Y / 400) mod 7.

(** The leap-day terms of the congruence. *)
Definition leapDays (y : Z) : Z := y / 4 - y / 100 + y / 400.

(** The same, counted from Sunday = 0. *)
Definition dayOfWeek (year month date : Z) : Z :=
  (zeller year month date + 6) mod 7.

(** A string that starts with the digit zero. *)
Definition leadingZero (s : string) : bool :=
  match s with
  | String c _ => Ascii.eqb c "0"
  | EmptyString => false
  end.

(** A decimal digit as a character. *)
Definition digit (n : Z) : ascii := ascii_of_nat (48 + Z.to_nat n).

End Spec.

Import EcmaDate JS Clock.

(** The world one render leaves behind, in the specification's vocabulary:
    one more clock reading used, the three fields overwritten from that one
    reading, the call recorded. *)
Definition rendered (LocalTZA : Z -> Z) (w : World) : World :=
  let now := nextDate w in
  mkWorld (clock w) (S (reads w))
    (<["time" := Spec.timeLabel (getHours LocalTZA now)
                                (getMinutes LocalTZA now)]>
      (<["date" := Spec.dateLabel (getMonth LocalTZA now)
                                  (getDate LocalTZA now)
                                  (getFullYear LocalTZA now)]>
        (<["day" := Spec.weekdayName (getDay LocalTZA now)]> (dom w))))
    (loopTime w) (timers w) (loopTime w :: calls w).

(** The same world with another system clock. *)
Definition withClock (c : nat -> Z) (w : World) : World :=
  mkWorld c (reads w) (dom w) (loopTime w) (timers w) (calls w).

(** The event-loop times of the renders that the timers have caused after
    [n + 1] turns of the loop, latest first: the first at [start], then one
    every 60000 ms. *)
Definition ticks (start : Z) (n : nat) : list Z :=
  map (fun k => start + 60000 * Z.of_nat k) (rev (seq 0 (S n))).

(** A page with the three targets, empty, its clock stopped at a given time
    value, in a host whose local time is UTC. *)
Definition utc : Z -> Z := fun _ => 0.

Definition page : gmap string string :=
  <["day" := EmptyString]>
    (<["date" := EmptyString]> (<["time" := EmptyString]> ∅)).

Definition stopped (t : Z) : World := mkWorld (fun _ => t) 0 page 0 [] [].

(** Three instants of 2024 in local time, months counted from 0. *)
Definition mar7_0005 : Z := MakeDate (MakeDay 2024 2 7) (MakeTime 0 5 0 0).
Definition mar7_1305 : Z := MakeDate (MakeDay 2024 2 7) (MakeTime 13 5 0 0).
Definition dec31_2359 : Z := MakeDate (MakeDay 2024 11 31) (MakeTime 23 59 0 0).

(** ** Vocabulary for the behaviour beyond the claims *)

(** The same world after one clock reading went by unused. *)
Definition skipReading (w : World) : World :=
  mkWorld (clock w) (S (reads w)) (dom w) (loopTime w) (timers w) (calls w).

(** The texts on the page after [updateClock], whether it completes or
    throws half way: each target is written only when it and the ones before
    it are there. *)
Definition written (LocalTZA : Z -> Z) (w : World) : gmap string string :=
  let now := nextDate w in
  match dom w !! "day" with
  | None => dom w
  | Some _ =>
      let d1 := <["day" := Spec.weekdayName (getDay LocalTZA now)]> (dom w) in
      match dom w !! "date" with
      | None => d1
      | Some _ =>
          let d2 := <["date" := Spec.dateLabel (getMonth LocalTZA now)
                                   (getDate LocalTZA now)
                                   (getFullYear LocalTZA now)]> d1 in
          match dom w !! "time" with
          | None => d2
          | Some _ =>
              <["time" := Spec.timeLabel (getHours LocalTZA now)
                                         (getMinutes LocalTZA now)]> d2
          end
      end
  end.

(** The label of the [k]-th minute of the day, and a test that the strings of
    a list are all different. *)
Definition timeOfDay (k : Z) : string := Spec.timeLabel (k / 60) (k mod 60).

Fixpoint distinct (l : list string) : bool :=
  match l with
  | [] => true
  | s :: l' => negb (existsb (String.eqb s) l') && distinct l'
  end.

(** Worlds to try the properties on, all in a host at UTC:
    - [stoppedOn d t]: the page [d], the clock stopped at [t], no timer;
    - [running t]: the three targets, a clock whose [k]-th reading is [k]
      milliseconds after [t];
    - [waiting d due]: the page [d] with the one-shot timer pending;
    - [ticking d due]: the page [d] with the repeating timer pending;
    - [punctual t]: the three targets and a clock in step with the timers,
      read at [t] twice and then on every whole minute after [t]. *)
Definition stoppedOn (d : gmap string string) (t : Z) : World :=
  mkWorld (fun _ => t) 0 d 0 [] [].

Definition running (t : Z) : World :=
  mkWorld (fun k => t + Z.of_nat k) 0 page 0 [] [].

Definition waiting (d : gmap string string) (due : Z) : World :=
  mkWorld (fun _ => 0) 0 d 0 [mkTimer due None AlignCallback] [].

Definition ticking (d : gmap string string) (due : Z) : World :=
  mkWorld (fun _ => 0) 0 d 0 [mkTimer due (Some 60000) UpdateClockCallback] [].


(** * Facts *)

(** Turn the boolean tests of the code into propositions. *)
Ltac bool_hyps :=
  repeat match goal with
  | H : negb _ = true |- _ => apply negb_true_iff in H
  | H : negb _ = false |- _ => apply negb_false_iff in H
  | H : (_ =? _) = true |- _ => apply Z.eqb_eq in H
  | H : (_ =? _) = false |- _ => apply Z.eqb_neq in H
  | H : (_ <=? _) = true |- _ => apply Z.leb_le in H
  | H : (_ <=? _) = false |- _ => apply Z.leb_gt in H
  | H : (_ <? _) = true |- _ => apply Z.ltb_lt in H
  | H : (_ <? _) = false |- _ => apply Z.ltb_ge in H
  end.

(** ** The calendar arithmetic *)

Module DateFacts.

Lemma DaysInYear_cases y : DaysInYear y = 365 \/ DaysInYear y = 366.
Proof. unfold DaysInYear. repeat case_match; auto. Qed.

Lemma DayFromYear_succ y : DayFromYear (y + 1) = DayFromYear y + DaysInYear y.
Proof.
  unfold DayFromYear, DaysInYear.
  repeat case_match; bool_hyps.
  all: Z.div_mod_to_equations; lia.
Qed.

Lemma DayFromYear_mono y1 y2 : y1 <= y2 -> DayFromYear y1 <= DayFromYear y2.
Proof.
  intros H. replace y2 with (y1 + (y2 - y1)) by lia.
  assert (0 <= y2 - y1) as Hn by lia. revert Hn.
  generalize (y2 - y1). apply natlike_ind.
  - rewrite Z.add_0_r. lia.
  - intros n Hn IH. replace (y1 + Z.succ n) with (y1 + n + 1) by lia.
    rewrite DayFromYear_succ. pose proof (DaysInYear_cases (y1 + n)). lia.
Qed.

(** A year start is never far from the mean year of 365.2425 days. *)
Lemma DayFromYear_mean y :
  -506 <= 400 * DayFromYear y - 146097 * (y - 1970) <= 589.
Proof. unfold DayFromYear. Z.div_mod_to_equations. lia. Qed.

Lemma year_estimate d :
  146097 * (400 * d / 146097) <= 400 * d < 146097 * (400 * d / 146097) + 146097.
Proof.
  pose proof (Z.div_mod (400 * d) 146097 ltac:(lia)) as E.
  pose proof (Z.mod_pos_bound (400 * d) 146097 ltac:(lia)) as B.
  lia.
Qed.

(** The year computed contains the day. *)
Lemma YearFromTime_spec t :
  DayFromYear (YearFromTime t) <= Day t < DayFromYear (YearFromTime t + 1).
Proof.
  unfold YearFromTime. generalize (Day t) as d. intros d. cbv zeta.
  pose proof (year_estimate d) as E.
  set (e := 400 * d / 146097) in *. clearbody e.
  repeat case_match; bool_hyps.
  - split; [lia|].
    pose proof (DayFromYear_mean (1970 + e + 1 + 1)). lia.
  - lia.
  - replace (1970 + e - 1 + 1) with (1970 + e) by lia.
    split; [|lia].
    pose proof (DayFromYear_mean (1970 + e - 1)). lia.
Qed.

(** [YearFromTime t] is the largest year that starts at or before [t], which
    is how the standard defines it. *)
Lemma YearFromTime_largest t y :
  TimeFromYear y <= t <-> y <= YearFromTime t.
Proof.
  pose proof (YearFromTime_spec t) as [L U].
  assert (TimeFromYear y <= t <-> DayFromYear y <= Day t) as ->.
  { unfold TimeFromYear, Day, msPerDay. split; intros H.
    - apply Z.div_le_lower_bound; lia.
    - pose proof (Z.div_mod t 86400000 ltac:(lia)).
      pose proof (Z.mod_pos_bound t 86400000 ltac:(lia)). lia. }
  split; intros H.
  - destruct (Z_le_gt_dec y (YearFromTime t)) as [|G]; [done|].
    pose proof (DayFromYear_mono (YearFromTime t + 1) y ltac:(lia)). lia.
  - pose proof (DayFromYear_mono y (YearFromTime t) H). lia.
Qed.

Lemma InLeapYear_cases t :
  (InLeapYear t = 0 /\ DaysInYear (YearFromTime t) = 365) \/
  (InLeapYear t = 1 /\ DaysInYear (YearFromTime t) = 366).
Proof.
  unfold InLeapYear. pose proof (DaysInYear_cases (YearFromTime t)).
  case_match; bool_hyps; lia.
Qed.

(** The assertion that closes [MonthFromTime] in the standard. *)
Lemma DayWithinYear_range t : 0 <= DayWithinYear t < 365 + InLeapYear t.
Proof.
  unfold DayWithinYear. pose proof (YearFromTime_spec t) as H.
  rewrite DayFromYear_succ in H.
  pose proof (InLeapYear_cases t). lia.
Qed.

Lemma MonthFromTime_range t : 0 <= MonthFromTime t <= 11.
Proof. unfold MonthFromTime. cbv zeta. repeat case_match; lia. Qed.

Lemma WeekDay_range t : 0 <= WeekDay t <= 6.
Proof. unfold WeekDay. pose proof (Z.mod_pos_bound (Day t + 4) 7). lia. Qed.

Lemma HourFromTime_range t : 0 <= HourFromTime t <= 23.
Proof.
  unfold HourFromTime, HoursPerDay.
  pose proof (Z.mod_pos_bound (t / msPerHour) 24). lia.
Qed.

Lemma MinFromTime_range t : 0 <= MinFromTime t <= 59.
Proof.
  unfold MinFromTime, MinutesPerHour.
  pose proof (Z.mod_pos_bound (t / msPerMinute) 60). lia.
Qed.

Lemma SecFromTime_range t : 0 <= SecFromTime t <= 59.
Proof.
  unfold SecFromTime, SecondsPerMinute.
  pose proof (Z.mod_pos_bound (t / msPerSecond) 60). lia.
Qed.

Lemma msFromTime_range t : 0 <= msFromTime t <= 999.
Proof.
  unfold msFromTime, msPerSecond. pose proof (Z.mod_pos_bound t 1000). lia.
Qed.

(** Seconds and milliseconds are what is left of [t] past the last whole
    minute. *)
Lemma past_minute t :
  SecFromTime t * 1000 + msFromTime t = t mod 60000.
Proof.
  unfold SecFromTime, msFromTime, SecondsPerMinute, msPerSecond.
  Z.div_mod_to_equations. lia.
Qed.

(** The month and the date split the day within the year. *)
Lemma month_date t :
  DateFromTime t =
    DayWithinYear t + 1 - daysBeforeMonth (InLeapYear t) (MonthFromTime t) /\
  daysBeforeMonth (InLeapYear t) (MonthFromTime t) <= DayWithinYear t <
    daysBeforeMonth (InLeapYear t) (MonthFromTime t) +
    Spec.DaysInMonth (InLeapYear t) (MonthFromTime t).
Proof.
  pose proof (DayWithinYear_range t) as R.
  pose proof (InLeapYear_cases t) as L.
  unfold DateFromTime, MonthFromTime. cbv zeta.
  generalize dependent (DayWithinYear t). generalize dependent (InLeapYear t).
  intros l L d R.
  repeat case_match; bool_hyps;
    cbn [Z.eqb Pos.eqb daysBeforeMonth Spec.DaysInMonth]; lia.
Qed.

Lemma DateFromTime_range t :
  1 <= DateFromTime t <= Spec.DaysInMonth (InLeapYear t) (MonthFromTime t).
Proof. pose proof (month_date t) as H. lia. Qed.

Lemma DaysInMonth_le_31 l m : 0 <= l <= 1 -> Spec.DaysInMonth l m <= 31.
Proof. intros H. unfold Spec.DaysInMonth. repeat case_match; lia. Qed.

Lemma DateFromTime_le_31 t : 1 <= DateFromTime t <= 31.
Proof.
  pose proof (DateFromTime_range t).
  pose proof (DaysInMonth_le_31 (InLeapYear t) (MonthFromTime t)).
  pose proof (InLeapYear_cases t). lia.
Qed.

(** The year, month and date of a time value name its day: building the day
    back from them gives [Day t]. *)
Lemma MakeDay_of_fields t :
  MakeDay (YearFromTime t) (MonthFromTime t) (DateFromTime t) = Day t.
Proof.
  pose proof (month_date t) as [E _]. pose proof (MonthFromTime_range t) as R.
  unfold MakeDay. cbv zeta.
  rewrite (Z.div_small (MonthFromTime t) 12),
    (Z.mod_small (MonthFromTime t) 12) by lia.
  rewrite Z.add_0_r. fold (InLeapYear t). rewrite E.
  unfold DayWithinYear. lia.
Qed.

Lemma DayFromYear_leapDays y :
  DayFromYear (y + 1) = 365 * (y - 1969) + Spec.leapDays y - 477.
Proof. unfold DayFromYear, Spec.leapDays. Z.div_mod_to_equations. lia. Qed.

Lemma zeller_leapDays year month date :
  Spec.zeller year month date =
  (date + 13 * ((if month <? 2 then month + 13 else month + 1) + 1) / 5 +
   (if month <? 2 then year - 1 else year) +
   Spec.leapDays (if month <? 2 then year - 1 else year)) mod 7.
Proof. unfold Spec.zeller, Spec.leapDays. cbv zeta. f_equal. lia. Qed.

(** The day of the week of a time value is the one Zeller's congruence gives
    for its calendar date. *)
Lemma WeekDay_dayOfWeek t :
  WeekDay t =
  Spec.dayOfWeek (YearFromTime t) (MonthFromTime t) (DateFromTime t).
Proof.
  pose proof (month_date t) as [E _]. pose proof (MonthFromTime_range t) as R.
  pose proof (InLeapYear_cases t) as L.
  assert (Day t = DayFromYear (YearFromTime t) + DayWithinYear t) as D
    by (unfold DayWithinYear; lia).
  pose proof (DayFromYear_leapDays (YearFromTime t)) as S1.
  pose proof (DayFromYear_leapDays (YearFromTime t - 1)) as S0.
  replace (YearFromTime t - 1 + 1) with (YearFromTime t) in S0 by lia.
  rewrite DayFromYear_succ in S1.
  unfold WeekDay, Spec.dayOfWeek. rewrite zeller_leapDays, D, E.
  generalize dependent (DayWithinYear t). intros d.
  generalize dependent (InLeapYear t). intros l.
  generalize dependent (MonthFromTime t). intros m.
  generalize dependent (DaysInYear (YearFromTime t)). intros n.
  generalize dependent (DayFromYear (YearFromTime t)). intros f.
  generalize (YearFromTime t). intros y **.
  assert (m = 0 \/ m = 1 \/ m = 2 \/ m = 3 \/ m = 4 \/ m = 5 \/ m = 6 \/
          m = 7 \/ m = 8 \/ m = 9 \/ m = 10 \/ m = 11) as Hm by lia.
  destruct Hm as [->|[->|[->|[->|[->|[->|[->|[->|[->|[->|[->| ->]]]]]]]]]]];
    cbn [Z.ltb Z.compare Pos.compare Pos.compare_cont daysBeforeMonth].
  all: set (L1 := Spec.leapDays y) in *; set (L0 := Spec.leapDays (y - 1)) in *;
       clearbody L0 L1; Z.div_mod_to_equations; lia.
Qed.

End DateFacts.

(** ** The script *)

Module ClockFacts.

(** A property checked on every integer of a range holds on the range. *)
Lemma range_check (P : Z -> bool) (lo : Z) (n : nat) :
  forallb P (map (fun k => lo + Z.of_nat k) (seq 0 n)) = true ->
  forall z, lo <= z < lo + Z.of_nat n -> P z = true.
Proof.
  intros H z Hz. rewrite forallb_forall in H. apply H.
  apply in_map_iff. exists (Z.to_nat (z - lo)). split; [lia|].
  apply in_seq. lia.
Qed.

Lemma index_days i :
  0 <= i <= 6 -> index days i = Str (Spec.weekdayName i).
Proof.
  intros H.
  assert (i = 0 \/ i = 1 \/ i = 2 \/ i = 3 \/ i = 4 \/ i = 5 \/ i = 6)
    as [->|[->|[->|[->|[->|[->| ->]]]]]] by lia; reflexivity.
Qed.

Lemma index_months i :
  0 <= i <= 11 -> index months i = Str (Spec.monthName i).
Proof.
  intros H.
  assert (i = 0 \/ i = 1 \/ i = 2 \/ i = 3 \/ i = 4 \/ i = 5 \/ i = 6 \/
          i = 7 \/ i = 8 \/ i = 9 \/ i = 10 \/ i = 11)
    as [->|[->|[->|[->|[->|[->|[->|[->|[->|[->|[->| ->]]]]]]]]]]] by lia;
    reflexivity.
Qed.

(** A minute prints as its tens digit and its units digit. *)
Lemma MinutePadded_digits m :
  0 <= m <= 59 ->
  Spec.MinutePadded m =
  String (Spec.digit (m / 10)) (String (Spec.digit (m mod 10)) EmptyString).
Proof.
  intros H. apply String.eqb_eq.
  apply (range_check
           (fun m => String.eqb (Spec.MinutePadded m)
              (String (Spec.digit (m / 10))
                      (String (Spec.digit (m mod 10)) EmptyString))) 0 60);
    [vm_compute; reflexivity | lia].
Qed.

(** A day of the month prints without a leading zero. *)
Lemma day_no_leading_zero d :
  1 <= d <= 31 -> Spec.leadingZero (pretty d) = false.
Proof.
  intros H. apply negb_true_iff.
  apply (range_check (fun d => negb (Spec.leadingZero (pretty d))) 1 31);
    [vm_compute; reflexivity | lia].
Qed.

Section Host.

Variable LocalTZA : Z -> Z.

Lemma getDay_range now : 0 <= getDay LocalTZA now <= 6.
Proof. apply DateFacts.WeekDay_range. Qed.

Lemma getMonth_range now : 0 <= getMonth LocalTZA now <= 11.
Proof. apply DateFacts.MonthFromTime_range. Qed.

Lemma getHours_range now : 0 <= getHours LocalTZA now <= 23.
Proof. apply DateFacts.HourFromTime_range. Qed.

Lemma getMinutes_range now : 0 <= getMinutes LocalTZA now <= 59.
Proof. apply DateFacts.MinFromTime_range. Qed.

Lemma getSeconds_range now : 0 <= getSeconds LocalTZA now <= 59.
Proof. apply DateFacts.SecFromTime_range. Qed.

Lemma getMilliseconds_range now : 0 <= getMilliseconds LocalTZA now <= 999.
Proof. apply DateFacts.msFromTime_range. Qed.

(** The hour and minute statements of [updateClock] compute the
    specification's time label. *)
Lemma timeStr_timeLabel hours minutes :
  0 <= hours ->
  ("- " +:+
   ToString (Num (if ToBoolean (Num (Z.rem hours 12)) then Z.rem hours 12
                  else 12)) +:+ ":" +:+
   ToString (if minutes <? 10 then concat "0" (Num minutes)
             else Num minutes) +:+ " " +:+
   (if hours >=? 12 then "PM" else "AM") +:+ " -")
  = Spec.timeLabel hours minutes.
Proof.
  intros H. unfold Spec.timeLabel, Spec.Hour12, Spec.MinutePadded, Spec.AmPm.
  rewrite Z.rem_mod_nonneg by lia. rewrite Z.geb_leb. cbn [ToBoolean].
  destruct (hours `mod` 12 =? 0); destruct (minutes <? 10);
    destruct (12 <=? hours); reflexivity.
Qed.

(** With its targets on the page, [updateClock] completes and leaves the
    world [rendered]. *)
Lemma updateClock_rendered w :
  hasTargets w -> updateClock LocalTZA w = Normal tt (rendered LocalTZA w).
Proof.
  intros ([d Hd] & [e He] & [f Hf]).
  unfold updateClock, rendered, nextDate.
  unfold mbind, M_bind, enter, newDate, setTextContent.
  cbn [dom clock reads loopTime timers calls].
  rewrite Hd. cbn [dom clock reads loopTime timers calls].
  rewrite lookup_insert_ne by done. rewrite He.
  cbn [dom clock reads loopTime timers calls].
  rewrite !lookup_insert_ne by done. rewrite Hf.
  cbn [dom clock reads loopTime timers calls].
  set (now := mkDate (clock w (reads w))).
  rewrite (index_days _ (getDay_range now)).
  rewrite (index_months _ (getMonth_range now)).
  pose proof (getHours_range now).
  cbn [textOf]. rewrite timeStr_timeLabel by lia. reflexivity.
Qed.

(** Whatever is on the page, [updateClock] reads the clock once. *)
Lemma updateClock_reads w :
  reads (world_of (updateClock LocalTZA w)) = S (reads w).
Proof.
  unfold updateClock, mbind, M_bind, enter, newDate, setTextContent.
  cbn [dom clock reads loopTime timers calls].
  destruct (dom w !! "day"); [|reflexivity].
  cbn [dom clock reads loopTime timers calls].
  match goal with |- context [?m !! "date"] => destruct (m !! "date") end;
    [|reflexivity].
  cbn [dom clock reads loopTime timers calls].
  match goal with |- context [?m !! "time"] => destruct (m !! "time") end;
    reflexivity.
Qed.

Lemma rendered_targets w : hasTargets w -> hasTargets (rendered LocalTZA w).
Proof.
  intros (Hd & He & Hf). unfold hasTargets, rendered.
  cbn [dom]. repeat split.
  - rewrite !lookup_insert_ne by done. rewrite lookup_insert_eq. eauto.
  - rewrite !lookup_insert_ne by done. rewrite lookup_insert_eq. eauto.
  - rewrite lookup_insert_eq. eauto.
Qed.

Lemma rendered_day w :
  dom (rendered LocalTZA w) !! "day" =
  Some (Spec.weekdayName (getDay LocalTZA (nextDate w))).
Proof.
  unfold rendered. cbn [dom].
  rewrite !lookup_insert_ne by done. apply lookup_insert_eq.
Qed.

Lemma rendered_date w :
  dom (rendered LocalTZA w) !! "date" =
  Some (Spec.dateLabel (getMonth LocalTZA (nextDate w))
          (getDate LocalTZA (nextDate w)) (getFullYear LocalTZA (nextDate w))).
Proof.
  unfold rendered. cbn [dom].
  rewrite !lookup_insert_ne by done. apply lookup_insert_eq.
Qed.

Lemma rendered_time w :
  dom (rendered LocalTZA w) !! "time" =
  Some (Spec.timeLabel (getHours LocalTZA (nextDate w))
          (getMinutes LocalTZA (nextDate w))).
Proof. unfold rendered. cbn [dom]. apply lookup_insert_eq. Qed.

End Host.
End ClockFacts.

(** ** The event loop *)

Import ClockFacts.

Module LoopFacts.

Lemma ticks_0 start : ticks start 0 = [start].
Proof. unfold ticks. cbn. f_equal. lia. Qed.

Lemma ticks_S start n :
  ticks start (S n) = (start + 60000 * Z.of_nat (S n)) :: ticks start n.
Proof.
  unfold ticks. rewrite (seq_S (S n) 0), rev_unit. reflexivity.
Qed.

Lemma run_S LocalTZA n w :
  run LocalTZA (S n) w =
  match fire LocalTZA w with
  | Some w' => run LocalTZA n w'
  | None => None
  end.
Proof. reflexivity. Qed.

Lemma run_S_last LocalTZA n w :
  run LocalTZA (S n) w =
  match run LocalTZA n w with
  | Some w' => fire LocalTZA w'
  | None => None
  end.
Proof.
  revert w. induction n as [|n IH]; intros w.
  - cbn. destruct (fire LocalTZA w); reflexivity.
  - rewrite run_S, (run_S LocalTZA n w).
    destruct (fire LocalTZA w) as [w'|]; [|reflexivity].
    apply IH.
Qed.

Section Host.

Variable LocalTZA : Z -> Z.

Lemma msUntilNextMinute_range now :
  1 <= msUntilNextMinute LocalTZA now <= 60000.
Proof.
  unfold msUntilNextMinute.
  pose proof (getSeconds_range LocalTZA now).
  pose proof (getMilliseconds_range LocalTZA now). lia.
Qed.

(** The delay ends on a whole minute of local time. *)
Lemma msUntilNextMinute_aligned now :
  (LocalTime LocalTZA (timeValue now) + msUntilNextMinute LocalTZA now)
    mod 60000 = 0.
Proof.
  unfold msUntilNextMinute, getSeconds, getMilliseconds.
  generalize (LocalTime LocalTZA (timeValue now)). intros t.
  pose proof (DateFacts.past_minute t) as P.
  replace (t + ((60 - SecFromTime t) * 1000 - msFromTime t))
    with (t - t mod 60000 + 1 * 60000) by lia.
  rewrite Z.mod_add by lia.
  rewrite Zminus_mod_idemp_r. rewrite Z.sub_diag. reflexivity.
Qed.

(** Loading a page with the targets: one render, one more clock reading,
    one timer. *)
Lemma load_rendered w :
  hasTargets w ->
  load LocalTZA w =
  let w1 := rendered LocalTZA w in
  mkWorld (clock w1) (S (reads w1)) (dom w1) (loopTime w1)
    (timers w1 ++
     [mkTimer (loopTime w1 + msUntilNextMinute LocalTZA (nextDate w1)) None
              AlignCallback])
    (calls w1).
Proof.
  intros H. unfold load, script, mbind, M_bind.
  rewrite (updateClock_rendered LocalTZA w H).
  unfold newDate, setTimeout, addTimer. cbn [world_of].
  fold (nextDate (rendered LocalTZA w)).
  pose proof (msUntilNextMinute_range (nextDate (rendered LocalTZA w))).
  rewrite Z.max_r by lia. reflexivity.
Qed.

(** The turn of the loop that runs the one-shot timer. *)
Lemma fire_align w d :
  hasTargets w -> timers w = [mkTimer d None AlignCallback] ->
  loopTime w <= d ->
  exists w',
    fire LocalTZA w = Some w' /\ hasTargets w' /\
    loopTime w' = d /\ calls w' = d :: calls w /\
    timers w' = [mkTimer (d + 60000) (Some 60000) UpdateClockCallback] /\
    reads w' = S (reads w) /\ clock w' = clock w.
Proof.
  intros H Ht Hd. unfold fire. rewrite Ht. cbn [nextTimer due action period].
  set (w1 := mkWorld (clock w) (reads w) (dom w) (Z.max (loopTime w) d) []
                     (calls w)).
  assert (hasTargets w1) as H1 by exact H.
  unfold runCallback, mbind, M_bind.
  rewrite (updateClock_rendered LocalTZA w1 H1).
  unfold setInterval, addTimer. cbn [world_of].
  eexists. split; [reflexivity|].
  split; [exact (rendered_targets LocalTZA w1 H1)|].
  cbn. rewrite Z.max_r by lia. repeat split; reflexivity.
Qed.

(** A turn of the loop that runs the repeating timer. *)
Lemma fire_tick w d :
  hasTargets w ->
  timers w = [mkTimer d (Some 60000) UpdateClockCallback] ->
  loopTime w <= d ->
  exists w',
    fire LocalTZA w = Some w' /\ hasTargets w' /\
    loopTime w' = d /\ calls w' = d :: calls w /\
    timers w' = [mkTimer (d + 60000) (Some 60000) UpdateClockCallback] /\
    reads w' = S (reads w) /\ clock w' = clock w.
Proof.
  intros H Ht Hd. unfold fire. rewrite Ht. cbn [nextTimer due action period].
  set (w1 := mkWorld (clock w) (reads w) (dom w) (Z.max (loopTime w) d) []
                     (calls w)).
  assert (hasTargets w1) as H1 by exact H.
  unfold runCallback.
  rewrite (updateClock_rendered LocalTZA w1 H1). cbn [world_of].
  eexists. split; [reflexivity|].
  split; [exact (rendered_targets LocalTZA w1 H1)|].
  cbn. rewrite Z.max_r by lia. repeat split; reflexivity.
Qed.

(** The schedule: after the turn of the one-shot timer and [n] turns of the
    repeating one, the renders were at [start], [start + 60000], ... and the
    repeating timer is pending for the next minute. *)
Lemma run_schedule w start n :
  hasTargets w -> timers w = [mkTimer start None AlignCallback] ->
  loopTime w <= start ->
  exists w',
    run LocalTZA (S n) w = Some w' /\ hasTargets w' /\
    loopTime w' = start + 60000 * Z.of_nat n /\
    calls w' = ticks start n ++ calls w /\
    timers w' = [mkTimer (start + 60000 * Z.of_nat (S n)) (Some 60000)
                         UpdateClockCallback] /\
    reads w' = (S n + reads w)%nat /\ clock w' = clock w.
Proof.
  intros H Ht Hs. induction n as [|n IH].
  - destruct (fire_align w start H Ht Hs) as (w' & F & T' & L & C & Q & R & K).
    exists w'. rewrite run_S, F. cbn [run].
    split; [reflexivity|]. split; [exact T'|]. split; [lia|].
    split; [rewrite ticks_0; exact C|].
    split; [rewrite Q; do 2 f_equal; lia|]. split; [lia|exact K].
  - destruct IH as (w1 & F & T1 & L & C & Q & R & K).
    destruct (fire_tick w1 _ T1 Q ltac:(lia))
      as (w' & F' & T' & L' & C' & Q' & R' & K').
    exists w'. rewrite run_S_last, F.
    split; [exact F'|]. split; [exact T'|]. split; [lia|].
    split; [rewrite C', C, ticks_S; reflexivity|].
    split; [rewrite Q'; do 2 f_equal; lia|]. split; [lia|congruence].
Qed.

End Host.
End LoopFacts.

Import LoopFacts.

(** * The claims *)

Lemma page_targets t : hasTargets (stopped t).
Proof. repeat split; eexists; reflexivity. Qed.

Section Claims.

Variable LocalTZA : Z -> Z.

(** Claim C1. With the targets on the page, [updateClock] writes the time
    label ["- H:MM TAG -"] where the hour shown [H] is [hour mod 12], or 12
    when that is 0, hence always in 1..12, and the tag is PM exactly when
    [hour >= 12]: hour 0 shows 12 AM, hour 12 shows 12 PM, hour 13 shows
    1 PM. *)
Theorem timeLabel_hour12 (w : World) :
  hasTargets w ->
  let now := nextDate w in
  let hour := getHours LocalTZA now in
  let shown := Spec.Hour12 hour in
  dom (world_of (updateClock LocalTZA w)) !! "time" =
    Some ("- " +:+ pretty shown +:+ ":" +:+
          Spec.MinutePadded (getMinutes LocalTZA now) +:+ " " +:+
          Spec.AmPm hour +:+ " -") /\
  1 <= shown <= 12 /\
  shown = (if hour mod 12 =? 0 then 12 else hour mod 12) /\
  (Spec.AmPm hour = "PM" <-> hour >= 12) /\
  (Spec.AmPm hour = "AM" <-> hour < 12) /\
  (hour = 0 -> pretty shown = "12" /\ Spec.AmPm hour = "AM") /\
  (hour = 12 -> pretty shown = "12" /\ Spec.AmPm hour = "PM") /\
  (hour = 13 -> pretty shown = "1" /\ Spec.AmPm hour = "PM").
Proof.
  intros H now hour shown.
  rewrite (updateClock_rendered LocalTZA w H). cbn [world_of].
  split; [apply rendered_time|].
  assert (1 <= shown <= 12) as R.
  { unfold shown, Spec.Hour12. pose proof (Z.mod_pos_bound hour 12).
    case_match; bool_hyps; lia. }
  split; [exact R|]. split; [reflexivity|].
  unfold Spec.AmPm.
  split; [|split].
  - case_match; bool_hyps; split; intros; try lia; try done.
  - case_match; bool_hyps; split; intros; try lia; try done.
  - unfold shown.
    repeat apply conj; intros E; rewrite E; split; reflexivity.
Qed.

(** Claim C2. The minute of the time label is always two characters, the
    tens digit and the units digit of a minute in 0..59; a zero is put in
    front exactly when the minute is below 10: 5 shows 05, 45 shows 45 and 0
    shows 00. *)
Theorem timeLabel_minute_padded (w : World) :
  hasTargets w ->
  let now := nextDate w in
  let minute := getMinutes LocalTZA now in
  let mm := Spec.MinutePadded minute in
  dom (world_of (updateClock LocalTZA w)) !! "time" =
    Some ("- " +:+ pretty (Spec.Hour12 (getHours LocalTZA now)) +:+ ":" +:+
          mm +:+ " " +:+ Spec.AmPm (getHours LocalTZA now) +:+ " -") /\
  0 <= minute <= 59 /\
  mm = String (Spec.digit (minute / 10))
         (String (Spec.digit (minute mod 10)) EmptyString) /\
  String.length mm = 2%nat /\
  (minute < 10 <-> mm = "0" +:+ pretty minute) /\
  (10 <= minute <-> mm = pretty minute) /\
  (minute = 5 -> mm = "05") /\
  (minute = 45 -> mm = "45") /\
  (minute = 0 -> mm = "00").
Proof.
  intros H now minute mm.
  rewrite (updateClock_rendered LocalTZA w H). cbn [world_of].
  split; [apply rendered_time|].
  pose proof (getMinutes_range LocalTZA now) as R. fold minute in R.
  split; [exact R|].
  pose proof (MinutePadded_digits minute R) as D. fold mm in D.
  split; [exact D|]. split; [rewrite D; reflexivity|].
  assert (forall s : string, s <> "0" +:+ s) as Hne.
  { intros s E. apply (f_equal String.length) in E.
    change (String.length s = S (String.length s)) in E. lia. }
  unfold mm, Spec.MinutePadded.
  split; [|split].
  - case_match; bool_hyps; split; intros; try lia; try done.
    exfalso. eapply Hne. eassumption.
  - case_match; bool_hyps; split; intros; try lia; try done.
    exfalso. eapply Hne. symmetry. eassumption.
  - repeat apply conj; intros E; rewrite E; reflexivity.
Qed.

(** Claim C3. When the second clock reading of the script (the one taken
    after the first render) has seconds [s] and milliseconds [m], the delay
    handed to [setTimeout] is [(60 - s) * 1000 - m]: 500 for 59 s 500 ms, a
    full 60000 at 0 s 0 ms. It is never zero, and it ends on a whole minute
    of local time. *)
Theorem alignment_delay (w : World) (s m : Z) :
  hasTargets w ->
  let now := mkDate (clock w (S (reads w))) in
  getSeconds LocalTZA now = s ->
  getMilliseconds LocalTZA now = m ->
  (0 <= s <= 59 /\ 0 <= m <= 999) /\
  msUntilNextMinute LocalTZA now = (60 - s) * 1000 - m /\
  timers (load LocalTZA w) =
    timers w ++
    [mkTimer (loopTime w + ((60 - s) * 1000 - m)) None AlignCallback] /\
  (s = 59 -> m = 500 -> msUntilNextMinute LocalTZA now = 500) /\
  (s = 0 -> m = 0 -> msUntilNextMinute LocalTZA now = 60000) /\
  1 <= msUntilNextMinute LocalTZA now <= 60000 /\
  (LocalTime LocalTZA (timeValue now) + msUntilNextMinute LocalTZA now)
    mod 60000 = 0.
Proof.
  intros H now Hs Hm.
  pose proof (getSeconds_range LocalTZA now).
  pose proof (getMilliseconds_range LocalTZA now).
  assert (msUntilNextMinute LocalTZA now = (60 - s) * 1000 - m) as E
    by (unfold msUntilNextMinute; lia).
  split; [lia|]. split; [exact E|].
  split.
  { rewrite (load_rendered LocalTZA w H). cbn. rewrite <- E. reflexivity. }
  split; [lia|]. split; [lia|].
  split; [apply msUntilNextMinute_range|apply msUntilNextMinute_aligned].
Qed.

(** Claim C4. At local time 2024-03-07T00:05:00 the fields read Thursday,
    March 7, 2024 and - 12:05 AM -; at 2024-12-31T23:59:00 they read Tuesday,
    December 31, 2024 and - 11:59 PM -. Months count from 0 in [MakeDay]. *)
Theorem end_to_end (w : World) :
  hasTargets w ->
  let local := LocalTime LocalTZA (timeValue (nextDate w)) in
  let shown := dom (world_of (updateClock LocalTZA w)) in
  (local = MakeDate (MakeDay 2024 2 7) (MakeTime 0 5 0 0) ->
   shown !! "day" = Some "Thursday" /\
   shown !! "date" = Some "March 7, 2024" /\
   shown !! "time" = Some "- 12:05 AM -") /\
  (local = MakeDate (MakeDay 2024 11 31) (MakeTime 23 59 0 0) ->
   shown !! "day" = Some "Tuesday" /\
   shown !! "date" = Some "December 31, 2024" /\
   shown !! "time" = Some "- 11:59 PM -").
Proof.
  intros H local shown. unfold shown.
  rewrite (updateClock_rendered LocalTZA w H). cbn [world_of].
  rewrite rendered_day, rendered_date, rendered_time.
  unfold getDay, getMonth, getDate, getFullYear, getHours, getMinutes.
  fold local.
  split; intros ->; repeat split; vm_compute; reflexivity.
Qed.

(** Claim C5. The name written in [day] is the entry of the seven-entry,
    Sunday-first table at the day of the week of the instant, and that day
    of the week is the one of the instant's calendar date (year, month,
    date), as Zeller's congruence computes it. *)
Theorem weekdayName_correct (w : World) :
  hasTargets w ->
  let now := nextDate w in
  let local := LocalTime LocalTZA (timeValue now) in
  dom (world_of (updateClock LocalTZA w)) !! "day" =
    Some (Spec.weekdayName
            (Spec.dayOfWeek (getFullYear LocalTZA now) (getMonth LocalTZA now)
                            (getDate LocalTZA now))) /\
  getDay LocalTZA now =
    Spec.dayOfWeek (getFullYear LocalTZA now) (getMonth LocalTZA now)
                   (getDate LocalTZA now) /\
  MakeDay (getFullYear LocalTZA now) (getMonth LocalTZA now)
          (getDate LocalTZA now) = Day local /\
  0 <= getDay LocalTZA now <= 6 /\
  index days (getDay LocalTZA now) =
    Str (Spec.weekdayName (getDay LocalTZA now)) /\
  days = ["Sunday"; "Monday"; "Tuesday"; "Wednesday"; "Thursday"; "Friday";
          "Saturday"] /\
  Spec.weekdayNames = days.
Proof.
  intros H now local.
  rewrite (updateClock_rendered LocalTZA w H). cbn [world_of].
  assert (getDay LocalTZA now =
          Spec.dayOfWeek (getFullYear LocalTZA now) (getMonth LocalTZA now)
                         (getDate LocalTZA now)) as E
    by apply DateFacts.WeekDay_dayOfWeek.
  split; [rewrite <- E; apply rendered_day|]. split; [exact E|].
  split; [apply DateFacts.MakeDay_of_fields|].
  split; [apply getDay_range|].
  split; [apply index_days, getDay_range|]. split; reflexivity.
Qed.

(** Claim C6. The text written in [date] is the month name, a space, the
    day of the month, a comma and a space, the year. The name is the entry of
    the twelve-entry table at the month of the instant, and the table is the
    twelve English month names, January first; the day is the day of the
    month from 1, within the length of that month, printed without a leading
    zero; the year is the calendar year that contains the instant. *)
Theorem dateLabel_format (w : World) :
  hasTargets w ->
  let now := nextDate w in
  let local := LocalTime LocalTZA (timeValue now) in
  let month := getMonth LocalTZA now in
  let day := getDate LocalTZA now in
  let year := getFullYear LocalTZA now in
  exists monthName : string,
    nth_error months (Z.to_nat month) = Some monthName /\
    dom (world_of (updateClock LocalTZA w)) !! "date" =
      Some (monthName +:+ " " +:+ pretty day +:+ ", " +:+ pretty year) /\
    length months = 12%nat /\
    0 <= month <= 11 /\
    1 <= day <= Spec.DaysInMonth (InLeapYear local) month /\
    day <= 31 /\
    Spec.leadingZero (pretty day) = false /\
    (forall y, TimeFromYear y <= local <-> y <= year) /\
    MakeDay year month day = Day local /\
    monthName = Spec.monthName month /\
    months = ["January"; "February"; "March"; "April"; "May"; "June"; "July";
              "August"; "September"; "October"; "November"; "December"] /\
    Spec.monthNames = months.
Proof.
  intros H now local month day year.
  rewrite (updateClock_rendered LocalTZA w H). cbn [world_of].
  pose proof (getMonth_range LocalTZA now) as R. fold month in R.
  pose proof (DateFacts.DateFromTime_le_31 local) as D.
  exists (Spec.monthName month).
  split.
  { assert (month = 0 \/ month = 1 \/ month = 2 \/ month = 3 \/ month = 4 \/
            month = 5 \/ month = 6 \/ month = 7 \/ month = 8 \/ month = 9 \/
            month = 10 \/ month = 11)
      as [->|[->|[->|[->|[->|[->|[->|[->|[->|[->|[->| ->]]]]]]]]]]] by lia;
      reflexivity. }
  split; [apply rendered_date|]. split; [reflexivity|]. split; [exact R|].
  split; [apply DateFacts.DateFromTime_range|]. split; [apply D|].
  split; [apply day_no_leading_zero, D|].
  split; [intros y; apply DateFacts.YearFromTime_largest|].
  split; [apply DateFacts.MakeDay_of_fields|].
  split; [reflexivity|]. split; reflexivity.
Qed.

(** Claim C7. One call of [updateClock] uses exactly one reading of the
    clock, and the three texts it writes are functions of that one reading:
    what the clock would answer later does not matter. *)
Theorem single_capture (w : World) :
  hasTargets w ->
  let now := mkDate (clock w (reads w)) in
  let w' := world_of (updateClock LocalTZA w) in
  updateClock LocalTZA w = Normal tt w' /\
  reads w' = S (reads w) /\
  dom w' !! "day" = Some (Spec.weekdayName (getDay LocalTZA now)) /\
  dom w' !! "date" =
    Some (Spec.dateLabel (getMonth LocalTZA now) (getDate LocalTZA now)
                         (getFullYear LocalTZA now)) /\
  dom w' !! "time" =
    Some (Spec.timeLabel (getHours LocalTZA now) (getMinutes LocalTZA now)) /\
  (forall c : nat -> Z,
     c (reads w) = clock w (reads w) ->
     dom (world_of (updateClock LocalTZA (withClock c w))) = dom w').
Proof.
  intros H now w'. unfold w'.
  rewrite (updateClock_rendered LocalTZA w H). cbn [world_of].
  split; [reflexivity|]. split; [reflexivity|].
  split; [apply rendered_day|]. split; [apply rendered_date|].
  split; [apply rendered_time|].
  intros c Hc.
  rewrite (updateClock_rendered LocalTZA (withClock c w) H). cbn [world_of].
  unfold rendered, nextDate. cbn [withClock clock reads dom]. rewrite Hc.
  reflexivity.
Qed.

(** Claim C8. When the clock gives the same time value to two successive
    calls of [updateClock], the second call writes the same three texts as
    the first. *)
Theorem render_twice_same_instant (w : World) :
  hasTargets w ->
  clock w (S (reads w)) = clock w (reads w) ->
  let w1 := world_of (updateClock LocalTZA w) in
  let w2 := world_of (updateClock LocalTZA w1) in
  dom w2 !! "day" = dom w1 !! "day" /\
  dom w2 !! "date" = dom w1 !! "date" /\
  dom w2 !! "time" = dom w1 !! "time" /\
  dom w2 = dom w1.
Proof.
  intros H Hc w1 w2. unfold w2, w1.
  rewrite (updateClock_rendered LocalTZA w H). cbn [world_of].
  rewrite (updateClock_rendered LocalTZA _ (rendered_targets LocalTZA w H)).
  cbn [world_of].
  assert (nextDate (rendered LocalTZA w) = nextDate w) as E
    by (unfold nextDate, rendered; cbn [clock reads]; rewrite Hc; reflexivity).
  assert (dom (rendered LocalTZA (rendered LocalTZA w)) =
          dom (rendered LocalTZA w)) as D.
  { unfold rendered at 1. cbn [dom]. rewrite E.
    apply map_eq. intros i.
    destruct (decide (i = "time")) as [->|];
      [rewrite lookup_insert_eq; symmetry; apply rendered_time|].
    rewrite lookup_insert_ne by done.
    destruct (decide (i = "date")) as [->|];
      [rewrite lookup_insert_eq; symmetry; apply rendered_date|].
    rewrite lookup_insert_ne by done.
    destruct (decide (i = "day")) as [->|];
      [rewrite lookup_insert_eq; symmetry; apply rendered_day|].
    rewrite lookup_insert_ne by done. reflexivity. }
  rewrite D. repeat split.
Qed.

(** Claim C9. Loading the page renders once, at once, and leaves one
    one-shot timer, due after the alignment delay. The first turn of the
    event loop is that timer: it renders once more and sets a repeating timer
    of period 60000. Every later turn is the repeating timer and renders
    once. So after [n + 1] turns the renders were at load time, at [start],
    [start + 60000], ..., [start + 60000 * n], in this order and no others,
    and the repeating timer is still pending: the loop always has a next
    turn. *)
Theorem schedule (w : World) (n : nat) :
  hasTargets w -> timers w = [] ->
  let delay := msUntilNextMinute LocalTZA (mkDate (clock w (S (reads w)))) in
  let start := loopTime w + delay in
  calls (load LocalTZA w) = loopTime w :: calls w /\
  timers (load LocalTZA w) = [mkTimer start None AlignCallback] /\
  1 <= delay <= 60000 /\
  exists w' : World,
    run LocalTZA (S n) (load LocalTZA w) = Some w' /\
    calls w' = ticks start n ++ loopTime w :: calls w /\
    timers w' = [mkTimer (start + 60000 * Z.of_nat (S n)) (Some 60000)
                         UpdateClockCallback] /\
    loopTime w' = start + 60000 * Z.of_nat n.
Proof.
  intros H Ht delay start.
  pose proof (msUntilNextMinute_range LocalTZA
                (mkDate (clock w (S (reads w))))) as R. fold delay in R.
  assert (calls (load LocalTZA w) = loopTime w :: calls w) as C
    by (rewrite (load_rendered LocalTZA w H); reflexivity).
  assert (timers (load LocalTZA w) = [mkTimer start None AlignCallback]) as T
    by (rewrite (load_rendered LocalTZA w H); cbn; rewrite Ht; reflexivity).
  assert (hasTargets (load LocalTZA w)) as H'
    by (rewrite (load_rendered LocalTZA w H);
        exact (rendered_targets LocalTZA w H)).
  assert (loopTime (load LocalTZA w) <= start) as L
    by (rewrite (load_rendered LocalTZA w H); cbn; lia).
  split; [exact C|]. split; [exact T|]. split; [exact R|].
  destruct (run_schedule LocalTZA (load LocalTZA w) start n H' T L)
    as (w' & F & _ & L' & C' & Q & _).
  exists w'. rewrite C in C'. auto.
Qed.

(** Claim C10. For every [Date], the day of the week is in 0..6 and the
    month is in 0..11, so that the lookups in the seven-entry and the
    twelve-entry table both find a name and never read [undefined]. *)
Theorem lookups_in_bounds (now : Date) :
  0 <= getDay LocalTZA now <= 6 /\
  0 <= getMonth LocalTZA now <= 11 /\
  length days = 7%nat /\
  length months = 12%nat /\
  (exists name, index days (getDay LocalTZA now) = Str name) /\
  (exists name, index months (getMonth LocalTZA now) = Str name) /\
  index days (getDay LocalTZA now) <> Undefined /\
  index months (getMonth LocalTZA now) <> Undefined.
Proof.
  pose proof (getDay_range LocalTZA now) as D.
  pose proof (getMonth_range LocalTZA now) as M.
  rewrite (index_days _ D), (index_months _ M).
  repeat split; try lia; try done; eauto.
Qed.

End Claims.

(** ** The claims at work on a concrete page

    The page holds the three empty targets, the host's local time is UTC and
    the clock stands still. *)

Lemma timeLabel_hour12_witness :
  hasTargets (stopped mar7_1305) /\
  dom (world_of
         (updateClock utc (stopped mar7_1305)))
    !! "time" = Some "- 1:05 PM -".
Proof.
  split; [apply page_targets|].
  exact (proj1 (timeLabel_hour12 utc (stopped mar7_1305) (page_targets _))).
Defined.

Lemma timeLabel_minute_padded_witness :
  hasTargets (stopped mar7_0005) /\
  dom (world_of
         (updateClock utc (stopped mar7_0005)))
    !! "time" = Some "- 12:05 AM -".
Proof.
  split; [apply page_targets|].
  exact (proj1 (timeLabel_minute_padded utc (stopped mar7_0005)
                  (page_targets _))).
Defined.

Lemma alignment_delay_witness :
  hasTargets (stopped 59500) /\
  getSeconds utc (mkDate 59500) = 59 /\
  getMilliseconds utc (mkDate 59500) = 500 /\
  msUntilNextMinute utc (mkDate 59500) = 500 /\
  timers (load utc (stopped 59500)) = [mkTimer 500 None AlignCallback].
Proof.
  split; [apply page_targets|]. split; [reflexivity|]. split; [reflexivity|].
  destruct (alignment_delay utc (stopped 59500) 59 500 (page_targets _)
              eq_refl eq_refl) as (_ & E & T & _).
  split; [exact E|exact T].
Defined.

Lemma end_to_end_witness :
  (hasTargets (stopped mar7_0005) /\
   dom (world_of
          (updateClock utc (stopped mar7_0005)))
     !! "date" = Some "March 7, 2024") /\
  (hasTargets (stopped dec31_2359) /\
   dom (world_of
          (updateClock utc (stopped dec31_2359)))
     !! "date" = Some "December 31, 2024").
Proof.
  split; (split; [apply page_targets|]).
  - exact (proj1 (proj2 (proj1 (end_to_end utc (stopped mar7_0005)
                                  (page_targets _)) eq_refl))).
  - exact (proj1 (proj2 (proj2 (end_to_end utc (stopped dec31_2359)
                                  (page_targets _)) eq_refl))).
Defined.

Lemma weekdayName_correct_witness :
  hasTargets (stopped mar7_0005) /\
  dom (world_of
         (updateClock utc (stopped mar7_0005)))
    !! "day" = Some "Thursday".
Proof.
  split; [apply page_targets|].
  exact (proj1 (weekdayName_correct utc (stopped mar7_0005)
                  (page_targets _))).
Defined.

Lemma dateLabel_format_witness :
  (hasTargets (stopped mar7_0005) /\
   dom (world_of (updateClock utc (stopped mar7_0005))) !! "date" =
     Some "March 7, 2024") /\
  (hasTargets (stopped dec31_2359) /\
   dom (world_of (updateClock utc (stopped dec31_2359))) !! "date" =
     Some "December 31, 2024").
Proof.
  split; (split; [apply page_targets|]).
  - destruct (dateLabel_format utc (stopped mar7_0005) (page_targets _))
      as (name & N & D & _).
    vm_compute in N. injection N as <-. exact D.
  - destruct (dateLabel_format utc (stopped dec31_2359) (page_targets _))
      as (name & N & D & _).
    vm_compute in N. injection N as <-. exact D.
Defined.

Lemma single_capture_witness :
  hasTargets (stopped 0) /\
  reads (world_of (updateClock utc (stopped 0))) = 1%nat.
Proof.
  split; [apply page_targets|].
  exact (proj1 (proj2 (single_capture utc (stopped 0) (page_targets 0)))).
Defined.

Lemma render_twice_same_instant_witness :
  hasTargets (stopped 0) /\
  dom (world_of (updateClock utc (world_of (updateClock utc (stopped 0))))) =
  dom (world_of (updateClock utc (stopped 0))).
Proof.
  split; [apply page_targets|].
  exact (proj2 (proj2 (proj2
    (render_twice_same_instant utc (stopped 0) (page_targets 0) eq_refl)))).
Defined.

Lemma schedule_witness :
  hasTargets (stopped 59500) /\
  timers (load utc (stopped 59500)) = [mkTimer 500 None AlignCallback] /\
  exists w' : World,
    run utc 3 (load utc (stopped 59500)) = Some w' /\
    calls w' = [120500; 60500; 500; 0] /\
    timers w' = [mkTimer 180500 (Some 60000) UpdateClockCallback].
Proof.
  split; [apply page_targets|].
  destruct (schedule utc (stopped 59500) 2 (page_targets _) eq_refl)
    as (_ & T & _ & w' & F & C & Q & _).
  split; [exact T|]. exists w'. split; [exact F|]. split; [exact C|exact Q].
Defined.

(** * Beyond the claims *)

(** ** Pages that miss a target *)

Module ErrorFacts.
Section Host.
Variable LocalTZA : Z -> Z.

Lemma hasTargets_dec w : hasTargets w \/ ~ hasTargets w.
Proof.
  unfold hasTargets.
  destruct (dom w !! "day"), (dom w !! "date"), (dom w !! "time");
    first [left; repeat split; eauto; fail
          | right; intros (A & B & C); inversion A; inversion B; inversion C;
            discriminate].
Qed.

(** What [updateClock] does on any page: it completes exactly when the three
    targets are there, and in every case leaves the texts [written]. *)
Lemma updateClock_outcome w :
  let w' := mkWorld (clock w) (S (reads w)) (written LocalTZA w) (loopTime w)
                    (timers w) (loopTime w :: calls w) in
  (hasTargets w /\ updateClock LocalTZA w = Normal tt w') \/
  (~ hasTargets w /\ updateClock LocalTZA w = Throw TypeError w').
Proof.
  cbv zeta.
  destruct (hasTargets_dec w) as [H|H].
  - left. split; [exact H|]. rewrite (updateClock_rendered LocalTZA w H).
    destruct H as ([d Hd] & [e He] & [f Hf]).
    unfold rendered, written. rewrite Hd, He, Hf. reflexivity.
  - right. split; [exact H|].
    unfold updateClock, written, nextDate.
    unfold mbind, M_bind, enter, newDate, setTextContent.
    cbn [dom clock reads loopTime timers calls].
    destruct (dom w !! "day") as [d|] eqn:Hd; [|reflexivity].
    cbn [dom clock reads loopTime timers calls].
    rewrite lookup_insert_ne by done.
    set (now := mkDate (clock w (reads w))).
    rewrite (index_days _ (getDay_range LocalTZA now)). cbn [textOf ToString].
    destruct (dom w !! "date") as [e|] eqn:He; [|reflexivity].
    cbn [dom clock reads loopTime timers calls].
    rewrite !lookup_insert_ne by done.
    rewrite (index_months _ (getMonth_range LocalTZA now)).
    destruct (dom w !! "time") as [f|] eqn:Hf.
    + exfalso. apply H. unfold hasTargets. rewrite Hd, He, Hf. eauto.
    + reflexivity.
Qed.

End Host.
End ErrorFacts.

Import ErrorFacts.

(** ** Minutes and labels *)

Module MoreFacts.

(** *** Fields that only depend on the minute *)

Lemma Day_of_minute t : Day t = t / 60000 / 1440.
Proof. unfold Day, msPerDay. rewrite Z.div_div by lia. reflexivity. Qed.

Lemma HourFromTime_of_minute t : HourFromTime t = (t / 60000 / 60) mod 24.
Proof.
  unfold HourFromTime, msPerHour, HoursPerDay.
  rewrite Z.div_div by lia. reflexivity.
Qed.

Lemma same_day_fields t1 t2 :
  Day t1 = Day t2 ->
  WeekDay t1 = WeekDay t2 /\ YearFromTime t1 = YearFromTime t2 /\
  MonthFromTime t1 = MonthFromTime t2 /\ DateFromTime t1 = DateFromTime t2.
Proof.
  intros E.
  assert (YearFromTime t1 = YearFromTime t2) as Y
    by (unfold YearFromTime; rewrite E; reflexivity).
  assert (InLeapYear t1 = InLeapYear t2) as L
    by (unfold InLeapYear; rewrite Y; reflexivity).
  assert (DayWithinYear t1 = DayWithinYear t2) as W
    by (unfold DayWithinYear; rewrite E, Y; reflexivity).
  assert (MonthFromTime t1 = MonthFromTime t2) as M
    by (unfold MonthFromTime; rewrite L, W; reflexivity).
  repeat split; try done.
  - unfold WeekDay. rewrite E. reflexivity.
  - unfold DateFromTime. rewrite L, W, M. reflexivity.
Qed.

(** *** Reading a time label back *)

Lemma timeOfDay_label h m :
  0 <= h -> 0 <= m <= 59 -> timeOfDay (60 * h + m) = Spec.timeLabel h m.
Proof.
  intros Hh Hm. unfold timeOfDay. f_equal.
  - Z.div_mod_to_equations. lia.
  - Z.div_mod_to_equations. lia.
Qed.

Lemma distinct_inj {A} (f : A -> string) (l : list A) :
  distinct (map f l) = true ->
  forall x y, In x l -> In y l -> f x = f y -> x = y.
Proof.
  induction l as [|a l IH]; intros D x y Hx Hy E; [destruct Hx|].
  cbn in D. apply andb_prop in D as [N D]. apply negb_true_iff in N.
  assert (forall z, In z l -> f a <> f z) as Ha.
  { intros z Hz Ez.
    assert (existsb (String.eqb (f a)) (map f l) = true) as C; [|congruence].
    apply existsb_exists. exists (f z).
    split; [apply in_map, Hz|apply String.eqb_eq, Ez]. }
  destruct Hx as [->|Hx], Hy as [->|Hy].
  - reflexivity.
  - destruct (Ha y Hy E).
  - destruct (Ha x Hx (eq_sym E)).
  - exact (IH D x y Hx Hy E).
Qed.

Lemma timeOfDay_distinct :
  distinct (map timeOfDay (map Z.of_nat (seq 0 1440))) = true.
Proof. vm_compute. reflexivity. Qed.

Lemma timeLabel_inj h m h' m' :
  0 <= h <= 23 -> 0 <= m <= 59 -> 0 <= h' <= 23 -> 0 <= m' <= 59 ->
  Spec.timeLabel h m = Spec.timeLabel h' m' -> h = h' /\ m = m'.
Proof.
  intros Hh Hm Hh' Hm' E.
  rewrite <- (timeOfDay_label h m), <- (timeOfDay_label h' m') in E by lia.
  assert (forall k, 0 <= k < 1440 -> In k (map Z.of_nat (seq 0 1440))) as I.
  { intros k Hk. apply in_map_iff. exists (Z.to_nat k).
    split; [lia|apply in_seq; lia]. }
  pose proof (distinct_inj timeOfDay _ timeOfDay_distinct
                (60 * h + m) (60 * h' + m')
                (I (60 * h + m) ltac:(lia)) (I (60 * h' + m') ltac:(lia)) E).
  lia.
Qed.

End MoreFacts.

Import MoreFacts.

(** ** Turns of the loop, with the page *)

Module TurnFacts.
Section Host.
Variable LocalTZA : Z -> Z.

(** [updateClock] on any page, whether it throws or not. *)
Lemma updateClock_world w :
  world_of (updateClock LocalTZA w) =
  mkWorld (clock w) (S (reads w)) (written LocalTZA w) (loopTime w)
          (timers w) (loopTime w :: calls w).
Proof.
  destruct (updateClock_outcome LocalTZA w) as [[_ E]|[_ E]];
    rewrite E; reflexivity.
Qed.




End Host.
End TurnFacts.

Import TurnFacts.

(** ** The properties *)

Section Extras.

Variable LocalTZA : Z -> Z.

(** Extra X2. [updateClock] completes exactly when the three targets are on
    the page, and throws a [TypeError] exactly when one is missing. *)
Theorem updateClock_completes_iff (w : World) :
  (updateClock LocalTZA w = Normal tt (world_of (updateClock LocalTZA w)) <->
   hasTargets w) /\
  (updateClock LocalTZA w =
     Throw TypeError (world_of (updateClock LocalTZA w)) <->
   ~ hasTargets w).
Proof.
  destruct (updateClock_outcome LocalTZA w) as [[H E]|[H E]]; rewrite E;
    cbn [world_of]; split; split; intros; try done.
Qed.

(** Extra X3. The three writes happen in the order [day], [date], [time]
    and stop at the first missing target: [day] is written when it is there,
    [date] when [day] and [date] are there, [time] when all three are; a
    target that is not reached keeps its text. *)
Theorem updateClock_writes_in_order (w : World) :
  let now := nextDate w in
  let shown := dom (world_of (updateClock LocalTZA w)) in
  shown !! "day" =
    match dom w !! "day" with
    | Some _ => Some (Spec.weekdayName (getDay LocalTZA now))
    | None => None
    end /\
  shown !! "date" =
    match dom w !! "day", dom w !! "date" with
    | Some _, Some _ =>
        Some (Spec.dateLabel (getMonth LocalTZA now) (getDate LocalTZA now)
                             (getFullYear LocalTZA now))
    | _, old => old
    end /\
  shown !! "time" =
    match dom w !! "day", dom w !! "date", dom w !! "time" with
    | Some _, Some _, Some _ =>
        Some (Spec.timeLabel (getHours LocalTZA now) (getMinutes LocalTZA now))
    | _, _, old => old
    end.
Proof.
  cbv zeta. rewrite updateClock_world. cbn [dom]. unfold written.
  destruct (dom w !! "day") eqn:Hd, (dom w !! "date") eqn:He,
    (dom w !! "time") eqn:Hf;
    rewrite ?Hd, ?He, ?Hf; repeat split;
    rewrite ?lookup_insert_eq, ?lookup_insert_ne by done;
    rewrite ?lookup_insert_eq, ?lookup_insert_ne by done;
    rewrite ?lookup_insert_eq, ?lookup_insert_ne by done; done.
Qed.

(** Extra X4. On a page that misses a target the script stops at its first
    statement: it throws after one clock reading and sets no timer, so that,
    with no other timer pending, the event loop has nothing to run, ever. *)
Theorem load_without_targets (w : World) :
  ~ hasTargets w ->
  script LocalTZA w = Throw TypeError (load LocalTZA w) /\
  reads (load LocalTZA w) = S (reads w) /\
  timers (load LocalTZA w) = timers w /\
  (timers w = [] ->
   forall n : nat, run LocalTZA (S n) (load LocalTZA w) = None).
Proof.
  intros H.
  destruct (updateClock_outcome LocalTZA w) as [[H' _]|[_ E]]; [done|].
  assert (script LocalTZA w =
          Throw TypeError (world_of (updateClock LocalTZA w)))
    as S by (unfold script, mbind, M_bind; rewrite E; reflexivity).
  unfold load. rewrite S. cbn [world_of]. rewrite E.
  cbn [world_of reads timers].
  repeat split; try reflexivity.
  intros T n. rewrite run_S. unfold fire. cbn [timers]. rewrite T. reflexivity.
Qed.

(** Extra X5. If a target is missing when the one-shot timer fires, its
    callback throws before [setInterval]: the repeating timer is never set
    and the event loop has nothing left to run. *)
Theorem align_without_targets (w : World) (d : Z) :
  ~ hasTargets w ->
  timers w = [mkTimer d None AlignCallback] ->
  exists w' : World,
    fire LocalTZA w = Some w' /\
    timers w' = [] /\
    reads w' = S (reads w) /\
    forall n : nat, run LocalTZA (S n) w' = None.
Proof.
  intros H T. unfold fire. rewrite T. cbn [nextTimer due action period].
  set (w1 := mkWorld (clock w) (reads w) (dom w) (Z.max (loopTime w) d) []
                     (calls w)).
  assert (~ hasTargets w1) as H1 by exact H.
  destruct (updateClock_outcome LocalTZA w1) as [[H' _]|[_ E]]; [done|].
  unfold runCallback, mbind, M_bind. rewrite E. cbn [world_of].
  eexists. split; [reflexivity|]. cbn [timers reads].
  split; [reflexivity|]. split; [reflexivity|].
  intros n. rewrite run_S. reflexivity.
Qed.

(** Extra X6. Two instants in the same minute of local time render the
    same three texts: nothing shown depends on seconds or milliseconds. *)
Theorem same_minute_same_texts (w1 w2 : World) :
  hasTargets w1 -> hasTargets w2 ->
  LocalTime LocalTZA (clock w1 (reads w1)) / 60000 =
  LocalTime LocalTZA (clock w2 (reads w2)) / 60000 ->
  let shown1 := dom (world_of (updateClock LocalTZA w1)) in
  let shown2 := dom (world_of (updateClock LocalTZA w2)) in
  shown1 !! "day" = shown2 !! "day" /\
  shown1 !! "date" = shown2 !! "date" /\
  shown1 !! "time" = shown2 !! "time".
Proof.
  intros H1 H2 E. cbv zeta.
  rewrite (updateClock_rendered LocalTZA w1 H1),
    (updateClock_rendered LocalTZA w2 H2). cbn [world_of].
  rewrite !rendered_day, !rendered_date, !rendered_time.
  unfold getDay, getMonth, getDate, getFullYear, getHours, getMinutes, nextDate.
  cbn [timeValue].
  set (t1 := LocalTime LocalTZA (clock w1 (reads w1))) in *.
  set (t2 := LocalTime LocalTZA (clock w2 (reads w2))) in *.
  assert (Day t1 = Day t2) as D by (rewrite !Day_of_minute, E; reflexivity).
  destruct (same_day_fields t1 t2 D) as (-> & -> & -> & ->).
  rewrite !HourFromTime_of_minute, E.
  unfold MinFromTime, msPerMinute. rewrite E. repeat split.
Qed.

(** Extra X7. The time text tells the time of day: two renders that write
    the same time text read the same hour (0..23) and the same minute. *)
Theorem timeLabel_unambiguous (w1 w2 : World) :
  hasTargets w1 -> hasTargets w2 ->
  dom (world_of (updateClock LocalTZA w1)) !! "time" =
  dom (world_of (updateClock LocalTZA w2)) !! "time" ->
  getHours LocalTZA (nextDate w1) = getHours LocalTZA (nextDate w2) /\
  getMinutes LocalTZA (nextDate w1) = getMinutes LocalTZA (nextDate w2).
Proof.
  intros H1 H2.
  rewrite (updateClock_rendered LocalTZA w1 H1),
    (updateClock_rendered LocalTZA w2 H2). cbn [world_of].
  rewrite !rendered_time. intros E. apply (inj Some) in E.
  apply timeLabel_inj in E;
    auto using getHours_range, getMinutes_range.
Qed.

(** Extra X8. A render overwrites: after two renders the page is what the
    second one alone would have left, nothing of the first remains. *)
Theorem render_overwrites (w : World) :
  hasTargets w ->
  dom (world_of (updateClock LocalTZA (world_of (updateClock LocalTZA w)))) =
  dom (world_of (updateClock LocalTZA (skipReading w))).
Proof.
  intros H.
  rewrite (updateClock_rendered LocalTZA w H). cbn [world_of].
  rewrite (updateClock_rendered LocalTZA _ (rendered_targets LocalTZA w H)).
  assert (hasTargets (skipReading w)) as H' by exact H.
  rewrite (updateClock_rendered LocalTZA _ H'). cbn [world_of].
  unfold rendered, nextDate, skipReading. cbn [dom clock reads].
  apply map_eq. intros i. rewrite !lookup_insert.
  repeat case_decide; reflexivity.
Qed.

(** Extra X10. Once the repeating timer is the pending timer it stays so,
    whatever is on the page: each turn of the loop calls [updateClock] once,
    reading the clock once, and an exception in it does not stop the
    timer. *)
Theorem repeating_timer_survives (w : World) (d p : Z) (n : nat) :
  timers w = [mkTimer d (Some p) UpdateClockCallback] ->
  exists (w' : World) (d' : Z),
    run LocalTZA n w = Some w' /\
    timers w' = [mkTimer d' (Some p) UpdateClockCallback] /\
    reads w' = (n + reads w)%nat /\
    length (calls w') = (n + length (calls w))%nat.
Proof.
  intros T. induction n as [|n IH].
  - exists w, d. repeat split. exact T.
  - destruct IH as (w1 & d1 & F & T1 & R & C).
    rewrite run_S_last, F. unfold fire. rewrite T1.
    cbn [nextTimer due action period]. unfold runCallback.
    rewrite updateClock_world. cbn [clock reads dom loopTime timers calls app].
    eexists _, _. split; [reflexivity|]. cbn [timers reads calls length].
    split; [reflexivity|]. split; lia.
Qed.

End Extras.


(** ** The properties at work *)

Lemma empty_page_no_targets (w : World) : dom w = ∅ -> ~ hasTargets w.
Proof. intros E ([x Hx] & _). rewrite E in Hx. discriminate. Qed.

Lemma running_targets t : hasTargets (running t).
Proof. repeat split; eexists; reflexivity. Qed.


Lemma load_without_targets_witness :
  ~ hasTargets (stoppedOn ∅ 0) /\
  script utc (stoppedOn ∅ 0) = Throw TypeError (load utc (stoppedOn ∅ 0)) /\
  timers (load utc (stoppedOn ∅ 0)) = [] /\
  run utc 1 (load utc (stoppedOn ∅ 0)) = None.
Proof.
  assert (~ hasTargets (stoppedOn ∅ 0)) as H
    by (apply empty_page_no_targets; reflexivity).
  split; [exact H|].
  destruct (load_without_targets utc (stoppedOn ∅ 0) H) as (S & _ & T & R).
  split; [exact S|]. split; [exact T|]. exact (R eq_refl 0%nat).
Defined.

Lemma align_without_targets_witness :
  ~ hasTargets (waiting ∅ 500) /\
  exists w' : World,
    fire utc (waiting ∅ 500) = Some w' /\ timers w' = [] /\
    run utc 1 w' = None.
Proof.
  assert (~ hasTargets (waiting ∅ 500)) as H
    by (apply empty_page_no_targets; reflexivity).
  split; [exact H|].
  destruct (align_without_targets utc (waiting ∅ 500) 500 H eq_refl)
    as (w' & F & T & _ & R).
  exists w'. split; [exact F|]. split; [exact T|exact (R 0%nat)].
Defined.

Lemma same_minute_same_texts_witness :
  hasTargets (stopped mar7_0005) /\
  hasTargets (stopped (mar7_0005 + 59999)) /\
  dom (world_of (updateClock utc (stopped mar7_0005))) !! "time" =
  dom (world_of (updateClock utc (stopped (mar7_0005 + 59999)))) !! "time".
Proof.
  split; [apply page_targets|]. split; [apply page_targets|].
  exact (proj2 (proj2 (same_minute_same_texts utc (stopped mar7_0005)
                         (stopped (mar7_0005 + 59999))
                         (page_targets _) (page_targets _) eq_refl))).
Defined.

Lemma timeLabel_unambiguous_witness :
  hasTargets (stopped mar7_0005) /\
  hasTargets (stopped (mar7_0005 + 30000)) /\
  getMinutes utc (nextDate (stopped mar7_0005)) =
  getMinutes utc (nextDate (stopped (mar7_0005 + 30000))).
Proof.
  split; [apply page_targets|]. split; [apply page_targets|].
  exact (proj2 (timeLabel_unambiguous utc (stopped mar7_0005)
                  (stopped (mar7_0005 + 30000))
                  (page_targets _) (page_targets _) eq_refl)).
Defined.

Lemma render_overwrites_witness :
  hasTargets (running (mar7_0005 + 59999)) /\
  dom (world_of (updateClock utc
         (world_of (updateClock utc (running (mar7_0005 + 59999)))))) =
  dom (world_of (updateClock utc (skipReading (running (mar7_0005 + 59999))))).
Proof.
  split; [apply running_targets|].
  exact (render_overwrites utc (running (mar7_0005 + 59999))
           (running_targets _)).
Defined.

Lemma repeating_timer_survives_witness :
  exists (w' : World) (d' : Z),
    run utc 3 (ticking ∅ 0) = Some w' /\
    timers w' = [mkTimer d' (Some 60000) UpdateClockCallback] /\
    reads w' = 3%nat.
Proof.
  destruct (repeating_timer_survives utc (ticking ∅ 0) 0 60000 3 eq_refl)
    as (w' & d' & F & T & R & _).
  exists w', d'. split; [exact F|]. split; [exact T|exact R].
Defined.

